(** * zabbix_trigger: reconciliation of one Zabbix trigger

    Shallow embedding of [plugins/modules/zabbix_trigger.py] and the
    properties of its specification.

    The module is Python: a name that is not assigned in a function is
    looked up in the module's globals and then in the builtins when the
    line runs, and an unbound one raises [NameError].  [exit_json] and
    [fail_json] of [AnsibleModule] end the process, so nothing after them
    runs.  Both are part of the embedding: every function below is a
    computation that either returns a value or halts, and that records
    the calls it makes on the remote session. *)

From stdpp Require Import base option list strings gmap fin_maps.

Open Scope string_scope.
Open Scope list_scope.

(** ** Data *)

(** One element of the [tags] option: [{"tag": ..., "value": ...}], the
    value being optional. *)
Record tag := Tag { tag_name : string; tag_value : option string }.

#[global] Instance tag_eq_dec : EqDecision tag.
Proof. solve_decision. Defined.

(** The values held by the fields of a trigger object: strings (names,
    expressions, wire codes, ids), the tag list, and the sub-objects that
    the server adds under [hosts], [items], [functions] and the like. *)
Inductive value :=
| VStr (s : string)
| VTags (ts : list tag)
| VObjects (os : list (gmap string string)).

#[global] Instance value_eq_dec : EqDecision value.
Proof. solve_decision. Defined.

(** A trigger object, desired or live, is a dict from field name to
    value. *)
Abbreviation config := (gmap string value).

(** ** Name resolution *)

Module Scope.

(** Names bound at the top level of the module: the [__future__] imports,
    the assignments, the three imports, the class and [main]. *)
Definition module_globals : list string :=
  [ "__name__"; "__doc__"; "__package__"; "__loader__"; "__spec__";
    "__file__"; "__builtins__";
    "absolute_import"; "division"; "print_function"; "__metaclass__";
    "DOCUMENTATION"; "EXAMPLES"; "RETURN";
    "AnsibleModule"; "ZabbixBase"; "zabbix_utils"; "Trigger"; "main" ].

(** Names of the [builtins] module. *)
Definition builtins : list string :=
  [ "abs"; "aiter"; "all"; "anext"; "any"; "ascii"; "bin"; "bool";
    "breakpoint"; "bytearray"; "bytes"; "callable"; "chr"; "classmethod";
    "compile"; "complex"; "copyright"; "credits"; "delattr"; "dict"; "dir";
    "divmod"; "enumerate"; "eval"; "exec"; "exit"; "filter"; "float";
    "format"; "frozenset"; "getattr"; "globals"; "hasattr"; "hash"; "help";
    "hex"; "id"; "input"; "int"; "isinstance"; "issubclass"; "iter"; "len";
    "license"; "list"; "locals"; "map"; "max"; "memoryview"; "min"; "next";
    "object"; "oct"; "open"; "ord"; "pow"; "print"; "property"; "quit";
    "range"; "repr"; "reversed"; "round"; "set"; "setattr"; "slice";
    "sorted"; "staticmethod"; "str"; "sum"; "super"; "tuple"; "type";
    "vars"; "zip"; "__import__"; "__build_class__"; "__debug__";
    "Ellipsis"; "NotImplemented";
    "BaseException"; "BaseExceptionGroup"; "Exception"; "ExceptionGroup";
    "ArithmeticError"; "AssertionError";
    "AttributeError"; "BlockingIOError"; "BrokenPipeError"; "BufferError";
    "BytesWarning"; "ChildProcessError"; "ConnectionAbortedError";
    "ConnectionError"; "ConnectionRefusedError"; "ConnectionResetError";
    "DeprecationWarning"; "EOFError"; "EncodingWarning";
    "EnvironmentError"; "FileExistsError"; "FileNotFoundError";
    "FloatingPointError"; "FutureWarning"; "GeneratorExit"; "IOError";
    "ImportError"; "ImportWarning"; "IndentationError"; "IndexError";
    "InterruptedError"; "IsADirectoryError"; "KeyError";
    "KeyboardInterrupt"; "LookupError"; "MemoryError";
    "ModuleNotFoundError"; "NameError"; "NotADirectoryError";
    "NotImplementedError"; "OSError"; "OverflowError";
    "PendingDeprecationWarning"; "PermissionError"; "ProcessLookupError";
    "RecursionError"; "ReferenceError"; "ResourceWarning"; "RuntimeError";
    "RuntimeWarning"; "StopAsyncIteration"; "StopIteration"; "SyntaxError";
    "SyntaxWarning"; "SystemError"; "SystemExit"; "TabError";
    "TimeoutError"; "TypeError"; "UnboundLocalError"; "UnicodeDecodeError";
    "UnicodeEncodeError"; "UnicodeError"; "UnicodeTranslateError";
    "UnicodeWarning"; "UserWarning"; "ValueError"; "Warning";
    "ZeroDivisionError" ].

(** What a name can denote: a string, or one of the module's globals or
    of the builtins (classes, functions, modules, constants), kept by
    name. *)
Inductive pyobj :=
| OStr (s : string)
| OGlobal (x : string)
| OBuiltin (x : string).

(** Globals first, then builtins; [None] is Python's [NameError]. *)
Definition resolve (x : string) : option pyobj :=
  if bool_decide (x ∈ module_globals) then Some (OGlobal x)
  else if bool_decide (x ∈ builtins) then Some (OBuiltin x)
  else None.

(** [bool(o)]: a string is true when it is not empty; classes, functions
    and modules are true. *)
Definition truthy (o : pyobj) : bool :=
  match o with
  | OStr s => bool_decide (s ≠ "")
  | OGlobal _ | OBuiltin _ => true
  end.

(** [o in d] for a dict [d] with string keys: an object that is not a
    string is hashable and equal to no key. *)
Definition in_dict {V} (o : pyobj) (d : gmap string V) : bool :=
  match o with
  | OStr s => bool_decide (is_Some (d !! s))
  | OGlobal _ | OBuiltin _ => false
  end.

End Scope.

Export Scope.

(** ** Computations *)

Inductive exn :=
| NameError (x : string)
| UnboundLocalError (x : string)
| KeyError (k : string)
| IndexError
| TypeError.

(** A string built with the [%] operator: the template and its argument. *)
Inductive text := Percent (template : string) (arg : pyobj).

(** How an invocation can stop other than by returning: the two exits of
    [AnsibleModule] with their keyword arguments, or an exception that
    nothing catches. *)
Inductive halt :=
| ExitJson (changed : bool) (kwargs : list (string * text))
| FailJson (msg : string)
| Raise (e : exn).

Inductive outcome (A : Type) :=
| Return (a : A)
| Halt (h : halt).

Arguments Return {A} a.
Arguments Halt {A} h.

(** The two queries the module sends to [trigger.get]. *)
Inductive get_request :=
| FilterHost (host : string)
| ExtendByIds (trigger_ids : value).

(** Calls on the remote session, in the order they are made. *)
Inductive call :=
| trigger_get (req : get_request)
| trigger_create (request : config)
| trigger_update (request : config)
| trigger_delete (trigger_ids : list value).

Definition mutating (c : call) : bool :=
  match c with
  | trigger_get _ => false
  | trigger_create _ | trigger_update _ | trigger_delete _ => true
  end.

(** What the base class [ZabbixBase] hands to the methods: the module
    (of which only [check_mode] is read) and the API session (of which
    only the answers of [trigger.get] are read). *)
Record session := Session {
  check_mode : bool;
  answer : get_request → list config
}.

Definition M (A : Type) : Type := session → outcome A * list call.

#[global] Instance M_ret : MRet M := λ A a _, (Return a, []).

#[global] Instance M_bind : MBind M := λ A B f m s,
  match m s with
  | (Return a, t) => let '(o, t') := f a s in (o, t ++ t')
  | (Halt h, t) => (Halt h, t)
  end.

Definition stop {A} (h : halt) : M A := λ _, (Halt h, []).
Definition raise {A} (e : exn) : M A := stop (Raise e).
Definition exit_json {A} (changed : bool) (kwargs : list (string * text)) : M A :=
  stop (ExitJson changed kwargs).
Definition fail_json {A} (msg : string) : M A := stop (FailJson msg).

Definition get_check_mode : M bool := λ s, (Return (check_mode s), []).

Definition zapi_trigger_get (req : get_request) : M (list config) :=
  λ s, (Return (answer s req), [trigger_get req]).
Definition zapi_trigger_create (request : config) : M unit :=
  λ _, (Return (), [trigger_create request]).
Definition zapi_trigger_update (request : config) : M unit :=
  λ _, (Return (), [trigger_update request]).
Definition zapi_trigger_delete (trigger_ids : list value) : M unit :=
  λ _, (Return (), [trigger_delete trigger_ids]).

(** Reading a name that the function does not assign. *)
Definition global_name (x : string) : M pyobj :=
  match resolve x with
  | Some o => mret o
  | None => raise (NameError x)
  end.

(** Reading a local that is assigned on some paths only. *)
Definition local_name {A} (x : string) (v : option A) : M A :=
  match v with
  | Some a => mret a
  | None => raise (UnboundLocalError x)
  end.

(** [d[k]] on a trigger object. *)
Definition getitem (d : config) (k : string) : M value :=
  match d !! k with
  | Some v => mret v
  | None => raise (KeyError k)
  end.

(** [d[o]] on a dict with string keys. *)
Definition dict_getitem (d : gmap string string) (o : pyobj) : M string :=
  match o with
  | OStr k => match d !! k with Some v => mret v | None => raise (KeyError k) end
  | OGlobal x | OBuiltin x => raise (KeyError x)
  end.

(** [o[k]] with a string key on what a free name denotes.  No global of
    the module and no builtin is a dict.  The only use is [pv_map[...]],
    and [pv_map] does not resolve, so this is never run. *)
Definition obj_getitem (o : pyobj) (k : string) : M string := raise TypeError.

(** [if v: ... else: ...] on an optional string parameter: [None] and the
    empty string are false. *)
Definition if_set {A} (v : option string) (then_ : string → M A) (else_ : M A) : M A :=
  match v with
  | Some s => if bool_decide (s ≠ "") then then_ s else else_
  | None => else_
  end.

Definition when (b : bool) (m : M unit) : M unit := if b then m else mret ().

Fixpoint for_each {A B} (f : B → A → M B) (acc : B) (l : list A) : M B :=
  match l with
  | [] => mret acc
  | x :: l' => acc' ← f acc x; for_each f acc' l'
  end.

(** ** The helpers of [module_utils] *)

(** Modelled from the spec: [zabbix_utils.helper_compare_dictionaries]
    followed by [zabbix_utils.helper_cleanup_data], both defined in
    [plugins/module_utils/helpers.py], which is not among the sources.
    The specification's Diff Engine: for each field present in the
    desired object, compare it with the field of the same name in the
    live object and keep it, with its desired value, only when they are
    unequal; a field the live object lacks is unequal.  Tags are compared
    as sequences, in order. *)
Definition diff (desired live : config) : config :=
  filter (λ kv, live !! kv.1 ≠ Some kv.2) desired.

(** ** class Trigger *)

Module Trigger.

(** [x == trigger_name] for a field of a trigger object. *)
Definition value_eq (v : value) (o : pyobj) : bool :=
  match v, o with
  | VStr a, OStr b => bool_decide (a = b)
  | _, _ => false
  end.

Definition get_trigger_ids (host : string) (trigger_name : pyobj) : M (list value) :=
  triggers ← zapi_trigger_get (FilterHost host);
  for_each (λ trigger_ids trigger,
              d ← getitem trigger "description";
              if value_eq d trigger_name
              then i ← getitem trigger "triggerid"; mret (trigger_ids ++ [i])
              else mret trigger_ids)
           [] triggers.

Definition delete_trigger (trigger_ids : list value) : M unit :=
  dry ← get_check_mode;
  when dry (exit_json true []);;
  zapi_trigger_delete trigger_ids.

Definition dump_triggers (trigger_ids : value) : M (list config) :=
  zapi_trigger_get (ExtendByIds trigger_ids).

Definition priority_map : gmap string string :=
  {[ "not_classified" := "0"; "information" := "1"; "warning" := "2";
     "average" := "3"; "high" := "4"; "disaster" := "5" ]}.
Definition status_map : gmap string string :=
  {[ "enabled" := "0"; "disabled" := "1" ]}.
Definition type_map : gmap string string :=
  {[ "single" := "0"; "multiple" := "1" ]}.
Definition manual_close_map : gmap string string :=
  {[ "no" := "0"; "yes" := "1" ]}.

(** The parameters are [description], [expression], [priority], [status],
    [recovery_mode], [manual_close] and [tags]: [type] is not one of them
    and is not assigned in the body, so it is read as a free name; so is
    [pv_map].  [status_map] is a local, assigned only inside the
    [if status:] block; the variable [status_map_] below holds it. *)
Definition generate_trigger_config (description expression : string)
    (priority status recovery_mode manual_close : option string)
    (tags : option (list tag)) : M config :=
  let request : config :=
    {[ "description" := VStr description;
       "expression" := VStr expression;
       "recovery_mode" := VStr "0" ]} in
  let request :=
    match tags with
    | Some (t :: ts) => <["tags" := VTags (t :: ts)]> request
    | Some [] | None => <["tags" := VTags []]> request
    end in
  let request := <["priority" := VStr "0"]> request in
  request ←
    if_set priority
      (λ priority,
         if negb (bool_decide (is_Some (priority_map !! priority)))
         then fail_json "Wrong value for 'priority' parameter."
         else pv_map ← global_name "pv_map";
              v ← obj_getitem pv_map priority;
              mret (<["priority" := VStr v]> request))
      (mret request);
  let request := <["status" := VStr "0"]> request in
  '(request, status_map_) ←
    if_set status
      (λ status,
         if negb (bool_decide (is_Some (status_map !! status)))
         then fail_json "Wrong value for 'status' parameter."
         else v ← dict_getitem status_map (OStr status);
              mret (<["status" := VStr v]> request, Some status_map))
      (mret (request, None));
  let request := <["type" := VStr "0"]> request in
  type ← global_name "type";
  request ←
    (if truthy type
     then type ← global_name "type";
          if negb (in_dict type type_map)
          then fail_json "Wrong value for 'type' parameter."
          else m ← local_name "status_map" status_map_;
               type ← global_name "type";
               v ← dict_getitem m type;
               mret (<["type" := VStr v]> request)
     else mret request);
  let request := <["manual_close" := VStr "0"]> request in
  request ←
    if_set manual_close
      (λ manual_close,
         if negb (bool_decide (is_Some (manual_close_map !! manual_close)))
         then fail_json "Wrong value for 'manual_close' parameter."
         else m ← local_name "status_map" status_map_;
              v ← dict_getitem m (OStr manual_close);
              mret (<["manual_close" := VStr v]> request))
      (mret request);
  mret request.

Definition create_trigger (description expression : string)
    (priority status recovery_mode manual_close : option string)
    (tags : option (list tag)) : M unit :=
  dry ← get_check_mode;
  when dry (exit_json true []);;
  request ← generate_trigger_config description expression priority status
              recovery_mode manual_close tags;
  zapi_trigger_create request.

(** Lines 226 to 238 of [update_trigger]: what it does with the desired
    configuration once [generate_trigger_config] has returned it.  [name]
    is not a parameter and is not assigned: it is read as a free name. *)
Definition update_trigger_with (generated_config : config) (trigger_id : value) : M unit :=
  dumped ← dump_triggers trigger_id;
  live_config ← match dumped with
                | live :: _ => mret live
                | [] => raise IndexError
                end;
  let difference := diff generated_config live_config in
  when (bool_decide (difference = ∅))
       (name ← global_name "name";
        exit_json false [("msg", Percent "Trigger %s up to date" name)]);;
  dry ← get_check_mode;
  when dry (exit_json true []);;
  let generated_config := <["triggerid" := trigger_id]> generated_config in
  zapi_trigger_update generated_config;;
  name ← global_name "name";
  exit_json true [("msg", Percent "Trigger %s updated" name)].

Definition update_trigger (trigger_id : value) (description expression : string)
    (priority status recovery_mode manual_close : option string)
    (tags : option (list tag)) : M unit :=
  generated_config ← generate_trigger_config description expression priority
                       status recovery_mode manual_close tags;
  update_trigger_with generated_config trigger_id.

End Trigger.

(** ** main *)

(** [module.params] after [AnsibleModule] has parsed the task: [host],
    [name] and [expression] are required strings, [state] is ["present"]
    or ["absent"], the other options are [None] when the task leaves them
    out. *)
Record params := Params {
  p_host : string;
  p_name : string;
  p_expression : string;
  p_state : string;
  p_priority : option string;
  p_recovery_mode : option string;
  p_status : option string;
  p_type : option string;
  p_manual_close : option string;
  p_tags : option (list tag)
}.

(** Lines 290 to 304 of [main]: the decision on [state] and on the ids
    found.  In [main] too [name] is a free name: the task's name is bound
    to [description]. *)
Definition main_reconcile (state : string) (trigger_ids : list value)
    (description expression : string)
    (priority status recovery_mode manual_close : option string)
    (tags : option (list tag)) : M unit :=
  if bool_decide (state = "absent") then
    when (bool_decide (trigger_ids = []))
         (name ← global_name "name";
          exit_json false [("msg", Percent "Trigger not found, no change: %s" name)]);;
    Trigger.delete_trigger trigger_ids;;
    name ← global_name "name";
    exit_json true [("result", Percent "Successfully deleted trigger(s) %s" name)]
  else if bool_decide (state = "present") then
    match trigger_ids with
    | [] =>
        Trigger.create_trigger description expression priority status
          recovery_mode manual_close tags;;
        name ← global_name "name";
        exit_json true [("msg", Percent "Trigger %s created" name)]
    | trigger_id :: _ =>
        Trigger.update_trigger trigger_id description expression priority status
          recovery_mode manual_close tags
    end
  else mret ().

Definition main (p : params) : M unit :=
  let host := p_host p in
  let description := p_name p in
  let expression := p_expression p in
  let state := p_state p in
  let priority := p_priority p in
  let status := p_status p in
  let type := p_type p in
  let manual_close := p_manual_close p in
  let recovery_mode := p_recovery_mode p in
  let tags := p_tags p in
  name ← global_name "name";
  trigger_ids ← Trigger.get_trigger_ids host name;
  main_reconcile state trigger_ids description expression priority status
    recovery_mode manual_close tags.

(** ** Vocabulary of the statements *)

(** The message of the four [fail_json] calls of the builder. *)
Definition wrong_value (field : string) : string :=
  "Wrong value for '" +:+ field +:+ "' parameter.".

(** How [generate_trigger_config] stops, read off its first two blocks. *)
Definition builder_halt (priority status : option string) : halt :=
  let after_priority :=
    match status with
    | Some s =>
        if bool_decide (s ≠ "") && negb (bool_decide (is_Some (Trigger.status_map !! s)))
        then FailJson (wrong_value "status")
        else FailJson (wrong_value "type")
    | None => FailJson (wrong_value "type")
    end in
  match priority with
  | Some p =>
      if bool_decide (p ≠ "")
      then if bool_decide (is_Some (Trigger.priority_map !! p))
           then Raise (NameError "pv_map")
           else FailJson (wrong_value "priority")
      else after_priority
  | None => after_priority
  end.

(** An option set to a non-empty string outside the domain's keys, and an
    option left out or empty. *)
Definition unrecognized (domain : gmap string string) (v : option string) : Prop :=
  ∃ s, v = Some s ∧ s ≠ "" ∧ domain !! s = None.
Definition unset (v : option string) : Prop := v = None ∨ v = Some "".

(** The read-only calls of a trace, and an exit that carries a message. *)
Definition reads (t : list call) : list call :=
  filter (λ c, mutating c = false) t.
Definition reports (o : outcome unit) : bool :=
  match o with
  | Halt (ExitJson _ (_ :: _)) => true
  | _ => false
  end.

(** A computation is gated by dry-run when, against the same server, its
    dry run makes exactly the read-only calls of its real run, and so no
    mutating one. *)
Definition gated {A} (m : M A) (srv : get_request → list config) : Prop :=
  (m (Session true srv)).2 = reads (m (Session false srv)).2
  ∧ Forall (λ c, mutating c = false) (m (Session true srv)).2.

Definition creates_or_updates (c : call) : bool :=
  match c with
  | trigger_create _ | trigger_update _ => true
  | trigger_get _ | trigger_delete _ => false
  end.

(** ** The scenarios of the specification *)

Module Scenario.

(** The declaration of scenarios A to D: only the required fields. *)
Definition declaration (state : string) : params :=
  Params "h1" "svc-down" "last(/h1/x)=1" state None None None None None None.

(** Scenario E: the same with [priority: urgent]. *)
Definition urgent : params :=
  Params "h1" "svc-down" "last(/h1/x)=1" "present" (Some "urgent") None None None None None.

(** The desired configuration scenario A expects for that declaration. *)
Definition desired : config :=
  {[ "description" := VStr "svc-down";
     "expression" := VStr "last(/h1/x)=1";
     "recovery_mode" := VStr "0";
     "tags" := VTags [];
     "priority" := VStr "0";
     "status" := VStr "0";
     "type" := VStr "0";
     "manual_close" := VStr "0" ]}.

(** A live trigger of host [h1]: the fields of [desired] with the given
    description and status, and what the server adds. *)
Definition live (triggerid description status : string) : config :=
  <["triggerid" := VStr triggerid]>
    (<["hosts" := VObjects [ {[ "hostid" := "10084"; "host" := "h1" ]} ]]>
       (<["description" := VStr description]>
          (<["status" := VStr status]> desired))).

(** A server that holds the given triggers, all on host [h1]. *)
Definition server (triggers : list config) (req : get_request) : list config :=
  match req with
  | FilterHost host => if bool_decide (host = "h1") then triggers else []
  | ExtendByIds id => filter (λ t, t !! "triggerid" = Some id) triggers
  end.

Definition remote (dry : bool) (triggers : list config) : session :=
  Session dry (server triggers).

(** What the server adds to a trigger object. *)
Definition extras : config :=
  {[ "triggerid" := VStr "7";
     "hosts" := VObjects [ {[ "hostid" := "10084"; "host" := "h1" ]} ] ]}.

End Scenario.

(** ** Vocabulary of the lookup *)

(** The id the lookup takes from one answered trigger: its [triggerid]
    when its description is the name asked for. *)
Definition matching_id (name : pyobj) (t : config) : option value :=
  d ← t !! "description";
  if Trigger.value_eq d name then t !! "triggerid" else None.

Definition matching_ids (name : pyobj) (triggers : list config) : list value :=
  omap (matching_id name) triggers.

(** A trigger the loop of the lookup gets through: it has a description,
    and a [triggerid] if the description is the name asked for. *)
Definition readable (name : pyobj) (t : config) : Prop :=
  ∃ d, t !! "description" = Some d
       ∧ (Trigger.value_eq d name = true → is_Some (t !! "triggerid")).

(** The key whose absence stops the loop on a trigger that is not
    readable. *)
Definition missing_key (t : config) : string :=
  if bool_decide (is_Some (t !! "description")) then "triggerid" else "description".

(** The mutating calls of a trace. *)
Definition writes (t : list call) : list call :=
  filter (λ c, mutating c = true) t.

(** ** Running computations *)

Lemma run_bind {A B} (m : M A) (f : A → M B) (s : session) :
  (m ≫= f) s =
  match m s with
  | (Return a, t) => let '(o, t') := f a s in (o, t ++ t')
  | (Halt h, t) => (Halt h, t)
  end.
Proof. reflexivity. Qed.

Lemma run_bind_halt {A B} (m : M A) (f : A → M B) s h t :
  m s = (Halt h, t) → (m ≫= f) s = (Halt h, t).
Proof. intros E. rewrite run_bind, E. reflexivity. Qed.

Lemma run_bind_return {A B} (m : M A) (f : A → M B) s a :
  m s = (Return a, []) → (m ≫= f) s = f a s.
Proof. intros E. rewrite run_bind, E. destruct (f a s); reflexivity. Qed.

Lemma resolve_name : resolve "name" = None.
Proof. reflexivity. Qed.

Lemma resolve_pv_map : resolve "pv_map" = None.
Proof. reflexivity. Qed.

Lemma resolve_type : resolve "type" = Some (OBuiltin "type").
Proof. reflexivity. Qed.

Lemma global_name_name s :
  global_name "name" s = (Halt (Raise (NameError "name")), []).
Proof. reflexivity. Qed.

Lemma global_name_type s :
  global_name "type" s = (Return (OBuiltin "type"), []).
Proof. reflexivity. Qed.

(** Case analysis on an optional string parameter, the way [if_set]
    reads it. *)
Ltac case_if_set v x :=
  destruct v as [x|]; [destruct (bool_decide (x ≠ "")) eqn:?|].

Lemma generate_trigger_config_halts d e p st r mc tg s :
  Trigger.generate_trigger_config d e p st r mc tg s = (Halt (builder_halt p st), []).
Proof.
  unfold Trigger.generate_trigger_config, builder_halt, if_set.
  case_if_set p p0.
  - destruct (bool_decide (is_Some (Trigger.priority_map !! p0))); reflexivity.
  - case_if_set st st0; try reflexivity.
    cbn [dict_getitem]. destruct (Trigger.status_map !! st0); reflexivity.
  - case_if_set st st0; try reflexivity.
    cbn [dict_getitem]. destruct (Trigger.status_map !! st0); reflexivity.
Qed.

Lemma create_trigger_run d e p st r mc tg s :
  Trigger.create_trigger d e p st r mc tg s =
  (Halt (if check_mode s then ExitJson true [] else builder_halt p st), []).
Proof.
  unfold Trigger.create_trigger.
  rewrite run_bind. unfold get_check_mode at 1.
  destruct (check_mode s) eqn:Hdry; [reflexivity|].
  cbn [when]. rewrite run_bind. cbn [mret M_ret].
  rewrite (run_bind_halt _ _ _ _ _ (generate_trigger_config_halts d e p st r mc tg s)).
  reflexivity.
Qed.

Lemma update_trigger_run id d e p st r mc tg s :
  Trigger.update_trigger id d e p st r mc tg s = (Halt (builder_halt p st), []).
Proof.
  unfold Trigger.update_trigger.
  apply run_bind_halt, generate_trigger_config_halts.
Qed.

Lemma delete_trigger_run ids s :
  Trigger.delete_trigger ids s =
  if check_mode s then (Halt (ExitJson true []), [])
  else (Return (), [trigger_delete ids]).
Proof.
  unfold Trigger.delete_trigger. rewrite run_bind. unfold get_check_mode at 1.
  destruct (check_mode s); reflexivity.
Qed.

(** The three ways [update_trigger_with] can go, by what the dump
    answers and by the diff. *)
Lemma update_trigger_with_run cfg id s :
  Trigger.update_trigger_with cfg id s =
  match answer s (ExtendByIds id) with
  | [] => (Halt (Raise IndexError), [trigger_get (ExtendByIds id)])
  | live :: _ =>
      if bool_decide (diff cfg live = ∅)
      then (Halt (Raise (NameError "name")), [trigger_get (ExtendByIds id)])
      else if check_mode s
      then (Halt (ExitJson true []), [trigger_get (ExtendByIds id)])
      else (Halt (Raise (NameError "name")),
            [trigger_get (ExtendByIds id);
             trigger_update (<["triggerid" := id]> cfg)])
  end.
Proof.
  unfold Trigger.update_trigger_with, Trigger.dump_triggers.
  rewrite run_bind. unfold zapi_trigger_get at 1.
  destruct (answer s (ExtendByIds id)) as [|live rest]; [reflexivity|].
  rewrite run_bind. cbn [mret M_ret].
  destruct (bool_decide (diff cfg live = ∅)); [reflexivity|].
  cbn [when]. rewrite run_bind. cbn [mret M_ret].
  rewrite run_bind. unfold get_check_mode at 1.
  destruct (check_mode s); reflexivity.
Qed.

Lemma main_reconcile_run state ids d e p st r mc tg s :
  main_reconcile state ids d e p st r mc tg s =
  if bool_decide (state = "absent") then
    match ids with
    | [] => (Halt (Raise (NameError "name")), [])
    | _ :: _ =>
        if check_mode s then (Halt (ExitJson true []), [])
        else (Halt (Raise (NameError "name")), [trigger_delete ids])
    end
  else if bool_decide (state = "present") then
    match ids with
    | [] => (Halt (if check_mode s then ExitJson true [] else builder_halt p st), [])
    | _ :: _ => (Halt (builder_halt p st), [])
    end
  else (Return (), []).
Proof.
  unfold main_reconcile.
  destruct (bool_decide (state = "absent")).
  - destruct ids as [|i ids]; [reflexivity|].
    rewrite run_bind. cbn [when bool_decide decide_rel]. 
    replace (bool_decide (i :: ids = [])) with false
      by (symmetry; apply bool_decide_eq_false; discriminate).
    cbn [mret M_ret]. rewrite run_bind, delete_trigger_run.
    destruct (check_mode s); reflexivity.
  - destruct (bool_decide (state = "present")); [|reflexivity].
    destruct ids as [|i ids].
    + rewrite run_bind, create_trigger_run. reflexivity.
    + apply update_trigger_run.
Qed.

Lemma main_run p s : main p s = (Halt (Raise (NameError "name")), []).
Proof. reflexivity. Qed.

Lemma builder_halt_no_report p st : reports (Halt (builder_halt p st)) = false.
Proof.
  unfold builder_halt.
  repeat match goal with
         | |- context [match ?x with _ => _ end] => destruct x
         end; reflexivity.
Qed.

(** ** The lookup *)

(** [get_trigger_ids] keeps, in order, the ids of the triggers whose
    description is the name asked for. *)
Lemma get_trigger_ids_scenario_D dry :
  Trigger.get_trigger_ids "h1" (OStr "svc-down")
    (Session dry (Scenario.server
       [Scenario.live "1" "svc-down" "0"; Scenario.live "9" "disk-full" "0";
        Scenario.live "2" "svc-down" "1"]))
  = (Return [VStr "1"; VStr "2"], [trigger_get (FilterHost "h1")]).
Proof. vm_compute. reflexivity. Qed.

(** ** The builder never returns *)

(** C9, as the code has it: [generate_trigger_config] never returns.  The
    free name [type] is the builtin, true and not a key of [type_map], so
    the failure branch on [type] is taken by every call that reaches it,
    that is, when [priority] is unset or empty and [status] is unset,
    empty or recognized.  A non-empty [priority] stops the call earlier
    (failure when unrecognized, [NameError] on [pv_map] when recognized)
    and so does an unrecognized [status].  Hence [create_trigger] and
    [update_trigger] make no call at all, and no run of the decision of
    [main] issues a create or an update. *)
Theorem generate_trigger_config_never_returns d e p st r mc tg s :
  Trigger.generate_trigger_config d e p st r mc tg s = (Halt (builder_halt p st), [])
  ∧ (Trigger.create_trigger d e p st r mc tg s).2 = []
  ∧ (∀ id, (Trigger.update_trigger id d e p st r mc tg s).2 = [])
  ∧ (∀ state ids,
       Forall (λ c, creates_or_updates c = false)
              (main_reconcile state ids d e p st r mc tg s).2).
Proof.
  split; [apply generate_trigger_config_halts|].
  split; [by rewrite create_trigger_run|].
  split; [intros id; by rewrite update_trigger_run|].
  intros state ids. rewrite main_reconcile_run.
  repeat case_bool_decide; destruct ids, (check_mode s); cbn [snd];
    repeat constructor.
Qed.

(** The failure branch on [type] is not reached by every call: with
    [priority: warning] the call stops on [pv_map]. *)
Lemma type_branch_not_always_reached :
  ¬ ∀ d e p st r mc tg s,
      (Trigger.generate_trigger_config d e p st r mc tg s).1
      = Halt (FailJson "Wrong value for 'type' parameter.").
Proof.
  intros H.
  specialize (H "svc-down" "last(/h1/x)=1" (Some "warning") None None None None
                (Session false (Scenario.server []))).
  vm_compute in H. discriminate H.
Qed.

(** ** main stops on [name] *)

(** C10: every invocation of [main], for any state, stops with
    [NameError] on [name] at the lookup call, before any remote call and
    before the decision on the state; and since every exit message of
    [main] and of [update_trigger] reads [name] too, no run of the
    decision or of the update ever exits with a message. *)
Theorem main_always_raises_NameError :
  (∀ p s, main p s = (Halt (Raise (NameError "name")), []))
  ∧ (∀ state ids d e p st r mc tg s,
       reports (main_reconcile state ids d e p st r mc tg s).1 = false)
  ∧ (∀ cfg id s, reports (Trigger.update_trigger_with cfg id s).1 = false).
Proof.
  split; [exact main_run|]. split.
  - intros. rewrite main_reconcile_run.
    repeat case_bool_decide; destruct ids, (check_mode s); cbn [fst];
      try reflexivity; apply builder_halt_no_report.
  - intros. rewrite update_trigger_with_run.
    destruct (answer s (ExtendByIds id)); [reflexivity|].
    case_bool_decide; [reflexivity|]. destruct (check_mode s); reflexivity.
Qed.

(** ** Dry-run *)

Lemma for_each_no_calls {A B} (f : B → A → M B) s :
  (∀ acc x, (f acc x s).2 = []) → ∀ l acc, (for_each f acc l s).2 = [].
Proof.
  intros Hf l. induction l as [|x l IH]; intros acc; [reflexivity|].
  cbn [for_each]. rewrite run_bind.
  specialize (Hf acc x). destruct (f acc x s) as [[acc'|h] t]; cbn [snd] in Hf; subst t.
  - specialize (IH acc'). destruct (for_each f acc' l s) as [o t].
    cbn [snd] in *. by subst t.
  - reflexivity.
Qed.

Lemma get_trigger_ids_trace host name s :
  (Trigger.get_trigger_ids host name s).2 = [trigger_get (FilterHost host)].
Proof.
  unfold Trigger.get_trigger_ids. rewrite run_bind. unfold zapi_trigger_get at 1.
  match goal with
  | |- context [for_each ?f ?acc ?l s] =>
      assert (H : (for_each f acc l s).2 = []);
        [apply for_each_no_calls | destruct (for_each f acc l s) as [o t]]
  end.
  { intros acc trigger. cbv beta. rewrite run_bind. unfold getitem.
    destruct (trigger !! "description") as [d|]; [|reflexivity].
    cbn [mret M_ret]. destruct (Trigger.value_eq d name); [|reflexivity].
    rewrite run_bind. destruct (trigger !! "triggerid"); reflexivity. }
  cbn [snd] in *. by subst t.
Qed.

(** X11: in check mode no mutating call is ever made, whatever the
    declaration and whatever the server holds: the dry run of [main], of
    its decision on the state and of every method of [Trigger] makes
    exactly the read-only calls of the real run against the same server,
    and no [trigger.create], [trigger.update] or [trigger.delete].  Given
    a desired configuration, a dry run of the tail of [update_trigger]
    makes the dump and stops there: on [IndexError] when the dump is
    empty, on [name] when the diff is empty, with [changed=True]
    otherwise. *)
Theorem dry_run_never_mutates (srv : get_request → list config) :
  (∀ p, gated (main p) srv)
  ∧ (∀ state ids d e p st r mc tg,
       gated (main_reconcile state ids d e p st r mc tg) srv)
  ∧ (∀ host name, gated (Trigger.get_trigger_ids host name) srv)
  ∧ (∀ ids, gated (Trigger.delete_trigger ids) srv)
  ∧ (∀ d e p st r mc tg, gated (Trigger.create_trigger d e p st r mc tg) srv)
  ∧ (∀ id d e p st r mc tg, gated (Trigger.update_trigger id d e p st r mc tg) srv)
  ∧ (∀ cfg id, gated (Trigger.update_trigger_with cfg id) srv)
  ∧ (∀ cfg id,
       Trigger.update_trigger_with cfg id (Session true srv)
       = (Halt match srv (ExtendByIds id) with
               | [] => Raise IndexError
               | live :: _ =>
                   if bool_decide (diff cfg live = ∅)
                   then Raise (NameError "name") else ExitJson true []
               end,
          [trigger_get (ExtendByIds id)])).
Proof.
  unfold gated.
  split_and!; intros; [split|split|split|split|split|split|split|].
  - reflexivity.
  - constructor.
  - rewrite !main_reconcile_run. cbn [check_mode].
    repeat case_bool_decide; destruct ids; reflexivity.
  - rewrite main_reconcile_run. cbn [check_mode].
    repeat case_bool_decide; destruct ids; constructor.
  - by rewrite !get_trigger_ids_trace.
  - rewrite get_trigger_ids_trace. by repeat constructor.
  - by rewrite !delete_trigger_run.
  - rewrite delete_trigger_run. constructor.
  - by rewrite !create_trigger_run.
  - rewrite create_trigger_run. constructor.
  - by rewrite !update_trigger_run.
  - rewrite update_trigger_run. constructor.
  - rewrite !update_trigger_with_run. cbn [answer check_mode].
    destruct (srv (ExtendByIds id)); [reflexivity|].
    case_bool_decide; reflexivity.
  - rewrite update_trigger_with_run. cbn [answer check_mode].
    destruct (srv (ExtendByIds id)); [by repeat constructor|].
    case_bool_decide; by repeat constructor.
  - rewrite update_trigger_with_run. cbn [answer check_mode].
    destruct (srv (ExtendByIds id)); [reflexivity|].
    case_bool_decide; reflexivity.
Qed.

(** C2 at a dry run of scenario C, one live trigger whose status
    differs.  No mutating call is made, but the read-only work the claim
    promises does not run either: [main] stops on [name] before the
    lookup, so no [trigger.get] is made, and [update_trigger] stops in
    the builder on [type] before the dump and the diff.  The code does
    attempt it: given the name the lookup makes its [trigger.get] and
    finds the trigger, and given a desired configuration the tail of the
    update dumps it, computes the diff and exits as changed. *)
Theorem dry_run_makes_no_read :
  main (Scenario.declaration "present")
       (Scenario.remote true [Scenario.live "7" "svc-down" "1"])
  = (Halt (Raise (NameError "name")), [])
  ∧ main_reconcile "present" [VStr "7"] "svc-down" "last(/h1/x)=1"
      None None None None None
      (Scenario.remote true [Scenario.live "7" "svc-down" "1"])
    = (Halt (FailJson "Wrong value for 'type' parameter."), [])
  ∧ Trigger.update_trigger (VStr "7") "svc-down" "last(/h1/x)=1"
      None None None None None
      (Scenario.remote true [Scenario.live "7" "svc-down" "1"])
    = (Halt (FailJson "Wrong value for 'type' parameter."), [])
  ∧ Trigger.get_trigger_ids "h1" (OStr "svc-down")
      (Scenario.remote true [Scenario.live "7" "svc-down" "1"])
    = (Return [VStr "7"], [trigger_get (FilterHost "h1")])
  ∧ Trigger.update_trigger_with Scenario.desired (VStr "7")
      (Scenario.remote true [Scenario.live "7" "svc-down" "1"])
    = (Halt (ExitJson true []), [trigger_get (ExtendByIds (VStr "7"))]).
Proof.
  split; [reflexivity|]. split; [reflexivity|]. split; [reflexivity|].
  split; vm_compute; reflexivity.
Qed.

(** ** The diff *)

(** C8: the diff is driven by the desired object.  A field that the
    desired object does not have never appears in the result, and adding
    to the live object any fields that the desired object does not have
    (or changing them there) leaves the result unchanged. *)
Theorem diff_desired_driven (desired live extra : config) :
  (∀ k, is_Some (extra !! k) → desired !! k = None) →
  (∀ k, desired !! k = None → diff desired live !! k = None)
  ∧ diff desired (extra ∪ live) = diff desired live.
Proof.
  intros Hextra. split.
  - intros k Hk. unfold diff. apply map_lookup_filter_None. left. exact Hk.
  - unfold diff. apply map_filter_strong_ext_1. intros k v. cbn [fst snd].
    split; intros [Hne Hk]; (split; [|exact Hk]).
    + intros Hlive. apply Hne. rewrite lookup_union_r; [exact Hlive|].
      destruct (extra !! k) eqn:E; [|reflexivity].
      rewrite Hextra in Hk by eauto. discriminate.
    + intros Hlive. apply Hne. rewrite lookup_union_r in Hlive; [exact Hlive|].
      destruct (extra !! k) eqn:E; [|reflexivity].
      rewrite Hextra in Hk by eauto. discriminate.
Qed.

Lemma diff_desired_driven_witness :
  (∀ k, is_Some (Scenario.extras !! k) → Scenario.desired !! k = None)
  ∧ (∀ k, Scenario.desired !! k = None →
          diff Scenario.desired (<["status" := VStr "1"]> Scenario.desired) !! k = None)
  ∧ diff Scenario.desired (Scenario.extras ∪ <["status" := VStr "1"]> Scenario.desired)
    = diff Scenario.desired (<["status" := VStr "1"]> Scenario.desired).
Proof.
  assert (H : ∀ k, is_Some (Scenario.extras !! k) → Scenario.desired !! k = None).
  { intros k [v Hk]. unfold Scenario.extras in Hk.
    apply lookup_insert_Some in Hk as [[<- _]|[_ Hk]]; [reflexivity|].
    apply lookup_singleton_Some in Hk as [<- _]. reflexivity. }
  split; [exact H|].
  exact (diff_desired_driven Scenario.desired
           (<["status" := VStr "1"]> Scenario.desired) Scenario.extras H).
Defined.

(** ** The update *)

(** C1, as the code has it: once a desired configuration is at hand, the
    dump answers with a live trigger, the diff is not empty and dry-run
    is off, [update_trigger] makes, after the read-only dump, exactly one
    [trigger.update] call, and its payload is the whole desired
    configuration with [triggerid] added, not the differing fields
    alone. *)
Theorem update_sends_whole_config (cfg live : config) (rest : list config)
    (id : value) (srv : get_request → list config) :
  srv (ExtendByIds id) = live :: rest →
  diff cfg live ≠ ∅ →
  (Trigger.update_trigger_with cfg id (Session false srv)).2
  = [trigger_get (ExtendByIds id); trigger_update (<["triggerid" := id]> cfg)].
Proof.
  intros Hdump Hdiff. rewrite update_trigger_with_run.
  cbn [answer check_mode]. rewrite Hdump.
  rewrite bool_decide_eq_false_2 by exact Hdiff. reflexivity.
Qed.

Lemma update_sends_whole_config_witness :
  Scenario.server [Scenario.live "7" "svc-down" "1"] (ExtendByIds (VStr "7"))
  = [Scenario.live "7" "svc-down" "1"]
  ∧ diff Scenario.desired (Scenario.live "7" "svc-down" "1") ≠ ∅
  ∧ (Trigger.update_trigger_with Scenario.desired (VStr "7")
       (Session false (Scenario.server [Scenario.live "7" "svc-down" "1"]))).2
    = [trigger_get (ExtendByIds (VStr "7"));
       trigger_update (<["triggerid" := VStr "7"]> Scenario.desired)].
Proof.
  assert (Hdiff : diff Scenario.desired (Scenario.live "7" "svc-down" "1") ≠ ∅).
  { intros H. apply (f_equal (λ m : config, m !! "status")) in H.
    vm_compute in H. discriminate H. }
  split; [reflexivity|]. split; [exact Hdiff|].
  exact (update_sends_whole_config Scenario.desired
           (Scenario.live "7" "svc-down" "1") [] (VStr "7")
           (Scenario.server [Scenario.live "7" "svc-down" "1"])
           eq_refl Hdiff).
Defined.

(** Scenario C: the live status differs.  [main] stops on [name] without
    any call; and the update, given the desired configuration, sends all
    of it, not the [status] field alone, and stops on [name] instead of
    reporting. *)
Lemma scenario_C_update_payload :
  main (Scenario.declaration "present")
       (Scenario.remote false [Scenario.live "7" "svc-down" "1"])
  = (Halt (Raise (NameError "name")), [])
  ∧ diff Scenario.desired (Scenario.live "7" "svc-down" "1")
    = {[ "status" := VStr "0" ]}
  ∧ Trigger.update_trigger_with Scenario.desired (VStr "7")
      (Scenario.remote false [Scenario.live "7" "svc-down" "1"])
    = (Halt (Raise (NameError "name")),
       [trigger_get (ExtendByIds (VStr "7"));
        trigger_update (<["triggerid" := VStr "7"]> Scenario.desired)])
  ∧ <["triggerid" := VStr "7"]> Scenario.desired
    ≠ <["triggerid" := VStr "7"]> {[ "status" := VStr "0" ]}.
Proof.
  split; [reflexivity|]. split; [vm_compute; reflexivity|].
  split; [vm_compute; reflexivity|].
  intros H. apply (f_equal (λ m : config, m !! "description")) in H.
  vm_compute in H. discriminate H.
Qed.

(** ** Unrecognized values *)

Lemma builder_halt_unrecognized field p st :
  (field = "priority" ∧ unrecognized Trigger.priority_map p)
  ∨ (field = "status" ∧ unset p ∧ unrecognized Trigger.status_map st) →
  builder_halt p st = FailJson (wrong_value field).
Proof.
  unfold builder_halt.
  intros [[-> (s & -> & Hne & Hnone)] | [-> [Hp (s & -> & Hne & Hnone)]]].
  - rewrite bool_decide_eq_true_2 by exact Hne.
    rewrite bool_decide_eq_false_2; [reflexivity|].
    rewrite Hnone. by intros [? ?].
  - assert (Hst : bool_decide (s ≠ "")
                  && negb (bool_decide (is_Some (Trigger.status_map !! s))) = true).
    { rewrite bool_decide_eq_true_2 by exact Hne.
      rewrite bool_decide_eq_false_2; [reflexivity|].
      rewrite Hnone. by intros [? ?]. }
    destruct Hp as [-> | ->]; cbn; rewrite Hst; reflexivity.
Qed.

(** C5, as the code has it: a non-empty [priority] outside its fixed
    set, or such a [status] when [priority] is unset, makes the builder
    fail with its "Wrong value" message, and [update_trigger] and, outside
    dry-run, [create_trigger] stop there without a remote call of their
    own.  The check sits inside the builder: [main] makes its lookup
    first, a dry-run create exits before the builder, and nothing
    checks an absent-state declaration. *)
Theorem invalid_enum_fails_in_builder (field : string) (d e : string)
    (p st r mc : option string) (tg : option (list tag)) (id : value) (s : session) :
  (field = "priority" ∧ unrecognized Trigger.priority_map p)
  ∨ (field = "status" ∧ unset p ∧ unrecognized Trigger.status_map st) →
  Trigger.generate_trigger_config d e p st r mc tg s
  = (Halt (FailJson (wrong_value field)), [])
  ∧ Trigger.update_trigger id d e p st r mc tg s
    = (Halt (FailJson (wrong_value field)), [])
  ∧ Trigger.create_trigger d e p st r mc tg s
    = (Halt (if check_mode s then ExitJson true [] else FailJson (wrong_value field)), []).
Proof.
  intros H. apply builder_halt_unrecognized in H.
  rewrite generate_trigger_config_halts, update_trigger_run, create_trigger_run, H.
  done.
Qed.

Lemma invalid_enum_fails_in_builder_witness :
  Trigger.generate_trigger_config "svc-down" "last(/h1/x)=1" (Some "urgent")
    None None None None (Scenario.remote false [])
  = (Halt (FailJson "Wrong value for 'priority' parameter."), [])
  ∧ Trigger.update_trigger (VStr "7") "svc-down" "last(/h1/x)=1" (Some "urgent")
      None None None None (Scenario.remote false [])
    = (Halt (FailJson "Wrong value for 'priority' parameter."), [])
  ∧ Trigger.create_trigger "svc-down" "last(/h1/x)=1" (Some "urgent")
      None None None None (Scenario.remote false [])
    = (Halt (FailJson "Wrong value for 'priority' parameter."), []).
Proof.
  apply (invalid_enum_fails_in_builder "priority" "svc-down" "last(/h1/x)=1"
           (Some "urgent") None None None None (VStr "7") (Scenario.remote false [])).
  left. split; [reflexivity|]. exists "urgent".
  split; [reflexivity|]. split; [discriminate|reflexivity].
Defined.

(** Scenario E, [priority: urgent]: [main] stops on [name], not on the
    priority; a dry run of the decision with no match exits as changed
    without checking the value; and an absent-state declaration with a
    match is deleted with the value unchecked. *)
Lemma scenario_E_not_fail_fast :
  main Scenario.urgent (Scenario.remote false [])
  = (Halt (Raise (NameError "name")), [])
  ∧ main_reconcile "present" [] "svc-down" "last(/h1/x)=1" (Some "urgent")
      None None None None (Scenario.remote true [])
    = (Halt (ExitJson true []), [])
  ∧ main_reconcile "absent" [VStr "1"] "svc-down" "last(/h1/x)=1" (Some "urgent")
      None None None None (Scenario.remote false [Scenario.live "1" "svc-down" "0"])
    = (Halt (Raise (NameError "name")), [trigger_delete [VStr "1"]]).
Proof. split_and!; reflexivity. Qed.

(** ** The scenarios on the code *)

(** C3 at [priority: warning], [status: disabled] and
    [manual_close: yes]: the tables hold the documented codes, but the
    builder returns none of them.  The priority block reads [pv_map],
    which nothing binds; the type block fails for every call that gets
    there, so the status code is lost and the manual_close block, which
    would index [status_map], is never reached. *)
Theorem enum_values_not_encoded :
  Trigger.priority_map !! "warning" = Some "2"
  ∧ Trigger.status_map !! "disabled" = Some "1"
  ∧ Trigger.manual_close_map !! "yes" = Some "1"
  ∧ Trigger.status_map !! "yes" = None
  ∧ Trigger.generate_trigger_config "svc-down" "last(/h1/x)=1" (Some "warning")
      None None None None (Scenario.remote false [])
    = (Halt (Raise (NameError "pv_map")), [])
  ∧ Trigger.generate_trigger_config "svc-down" "last(/h1/x)=1" None
      (Some "disabled") None None None (Scenario.remote false [])
    = (Halt (FailJson "Wrong value for 'type' parameter."), [])
  ∧ Trigger.generate_trigger_config "svc-down" "last(/h1/x)=1" None
      None None (Some "yes") None (Scenario.remote false [])
    = (Halt (FailJson "Wrong value for 'type' parameter."), []).
Proof. split_and!; reflexivity. Qed.

(** C4 at scenario A, no trigger on the server: [main] stops on [name]
    before the lookup; and the decision, given the empty lookup result,
    stops in the builder on [type]: no create call is made. *)
Theorem scenario_A_not_created :
  main (Scenario.declaration "present") (Scenario.remote false [])
  = (Halt (Raise (NameError "name")), [])
  ∧ Trigger.get_trigger_ids "h1" (OStr "svc-down") (Scenario.remote false [])
    = (Return [], [trigger_get (FilterHost "h1")])
  ∧ main_reconcile "present" [] "svc-down" "last(/h1/x)=1" None None None None None
      (Scenario.remote false [])
    = (Halt (FailJson "Wrong value for 'type' parameter."), []).
Proof. split_and!; reflexivity. Qed.

(** C6 at scenario B, one live trigger equal to the desired
    configuration: the diff is empty and no mutating call is made, but
    nothing reports "no change": [main] stops on [name], the decision
    stops in the builder, and the update, given the desired
    configuration, stops on [name] in its "up to date" message. *)
Theorem scenario_B_no_report :
  main (Scenario.declaration "present")
       (Scenario.remote false [Scenario.live "7" "svc-down" "0"])
  = (Halt (Raise (NameError "name")), [])
  ∧ main_reconcile "present" [VStr "7"] "svc-down" "last(/h1/x)=1"
      None None None None None
      (Scenario.remote false [Scenario.live "7" "svc-down" "0"])
    = (Halt (FailJson "Wrong value for 'type' parameter."), [])
  ∧ diff Scenario.desired (Scenario.live "7" "svc-down" "0") = ∅
  ∧ Trigger.update_trigger_with Scenario.desired (VStr "7")
      (Scenario.remote false [Scenario.live "7" "svc-down" "0"])
    = (Halt (Raise (NameError "name")), [trigger_get (ExtendByIds (VStr "7"))]).
Proof.
  split; [reflexivity|]. split; [reflexivity|].
  split; vm_compute; reflexivity.
Qed.

(** C7 at scenario D, two live triggers named [svc-down] on [h1]:
    [main] stops on [name] before the lookup.  Given the name, the
    lookup finds both ids, and the decision passes them to one delete
    call, but then stops on [name] instead of reporting; with no id
    found it stops on [name] too, without a call. *)
Theorem scenario_D_no_report :
  main (Scenario.declaration "absent")
       (Scenario.remote false
          [Scenario.live "1" "svc-down" "0"; Scenario.live "2" "svc-down" "0"])
  = (Halt (Raise (NameError "name")), [])
  ∧ Trigger.get_trigger_ids "h1" (OStr "svc-down")
      (Scenario.remote false
         [Scenario.live "1" "svc-down" "0"; Scenario.live "2" "svc-down" "0"])
    = (Return [VStr "1"; VStr "2"], [trigger_get (FilterHost "h1")])
  ∧ main_reconcile "absent" [VStr "1"; VStr "2"] "svc-down" "last(/h1/x)=1"
      None None None None None
      (Scenario.remote false
         [Scenario.live "1" "svc-down" "0"; Scenario.live "2" "svc-down" "0"])
    = (Halt (Raise (NameError "name")), [trigger_delete [VStr "1"; VStr "2"]])
  ∧ main_reconcile "absent" [] "svc-down" "last(/h1/x)=1"
      None None None None None (Scenario.remote false [])
    = (Halt (Raise (NameError "name")), []).
Proof.
  split; [reflexivity|]. split; [vm_compute; reflexivity|].
  split; reflexivity.
Qed.

(** ** Further properties of the lookup *)

Lemma getitem_Some (d : config) k v s :
  d !! k = Some v → getitem d k s = (Return v, []).
Proof. intros E. unfold getitem. by rewrite E. Qed.

Lemma getitem_None (d : config) k s :
  d !! k = None → getitem d k s = (Halt (Raise (KeyError k)), []).
Proof. intros E. unfold getitem. by rewrite E. Qed.

(** The loop of [get_trigger_ids] over readable triggers. *)
Lemma lookup_loop_readable name s (l : list config) : ∀ acc,
  Forall (readable name) l →
  for_each (λ trigger_ids trigger,
              d ← getitem trigger "description";
              if Trigger.value_eq d name
              then i ← getitem trigger "triggerid"; mret (trigger_ids ++ [i])
              else mret trigger_ids)
           acc l s
  = (Return (acc ++ matching_ids name l), []).
Proof.
  induction l as [|t l IH]; intros acc Hl.
  - cbn. by rewrite app_nil_r.
  - apply Forall_cons in Hl as [(d & Hd & Hid) Hl].
    assert (Hm : matching_ids name (t :: l)
                 = match (if Trigger.value_eq d name then t !! "triggerid" else None) with
                   | Some i => i :: matching_ids name l
                   | None => matching_ids name l
                   end).
    { unfold matching_ids. cbn [omap list_omap].
      unfold matching_id at 1. rewrite Hd. reflexivity. }
    rewrite Hm. clear Hm.
    cbn [for_each]. rewrite run_bind, run_bind.
    rewrite (getitem_Some _ _ _ _ Hd).
    destruct (Trigger.value_eq d name) eqn:Heq.
    + destruct (Hid eq_refl) as [i Hi]. rewrite run_bind.
      rewrite (getitem_Some _ _ _ _ Hi). cbn [mret M_ret app].
      rewrite (IH (acc ++ [i]) Hl), Hi. by rewrite <- app_assoc.
    + cbn [mret M_ret app]. rewrite (IH acc Hl). reflexivity.
Qed.

(** The loop stops on the first trigger that is not readable. *)
Lemma lookup_loop_unreadable name s (good : list config) bad rest : ∀ acc,
  Forall (readable name) good →
  ¬ readable name bad →
  for_each (λ trigger_ids trigger,
              d ← getitem trigger "description";
              if Trigger.value_eq d name
              then i ← getitem trigger "triggerid"; mret (trigger_ids ++ [i])
              else mret trigger_ids)
           acc (good ++ bad :: rest) s
  = (Halt (Raise (KeyError (missing_key bad))), []).
Proof.
  induction good as [|t l IH]; intros acc Hgood Hbad.
  - cbn [app for_each]. rewrite run_bind, run_bind. unfold missing_key.
    destruct (bad !! "description") as [d|] eqn:Hd;
      [rewrite (getitem_Some _ _ _ _ Hd) | by rewrite (getitem_None _ _ _ Hd)].
    destruct (Trigger.value_eq d name) eqn:Heq.
    + rewrite run_bind.
      destruct (bad !! "triggerid") as [i|] eqn:Hi;
        [|by rewrite (getitem_None _ _ _ Hi)].
      exfalso. apply Hbad. exists d. eauto.
    + exfalso. apply Hbad. exists d. split; [done|]. by rewrite Heq.
  - apply Forall_cons in Hgood as [(d & Hd & Hid) Hgood].
    cbn [app for_each]. rewrite run_bind, run_bind.
    rewrite (getitem_Some _ _ _ _ Hd).
    destruct (Trigger.value_eq d name) eqn:Heq.
    + destruct (Hid eq_refl) as [i Hi]. rewrite run_bind.
      rewrite (getitem_Some _ _ _ _ Hi). cbn [mret M_ret app].
      by rewrite (IH (acc ++ [i]) Hgood Hbad).
    + cbn [mret M_ret app]. by rewrite (IH acc Hgood Hbad).
Qed.

(** X1: when every trigger the server answers for the host has a
    description, and a [triggerid] if the description is the name asked
    for, [get_trigger_ids] makes one [trigger.get] filtered on the host
    and returns, in the order of the answer, the ids of exactly the
    triggers whose description is that name.  Triggers with another
    description need no [triggerid]. *)
Theorem get_trigger_ids_returns_matching host name s :
  Forall (readable name) (answer s (FilterHost host)) →
  Trigger.get_trigger_ids host name s
  = (Return (matching_ids name (answer s (FilterHost host))),
     [trigger_get (FilterHost host)]).
Proof.
  intros Hok. unfold Trigger.get_trigger_ids.
  rewrite run_bind. unfold zapi_trigger_get at 1.
  by rewrite lookup_loop_readable.
Qed.

(** X2: the first answered trigger that lacks a description, or that
    has the name asked for but no [triggerid], stops [get_trigger_ids]
    with [KeyError] on that key, after its one [trigger.get]; the ids
    collected so far are lost. *)
Theorem get_trigger_ids_missing_key host name s good bad rest :
  answer s (FilterHost host) = good ++ bad :: rest →
  Forall (readable name) good →
  ¬ readable name bad →
  Trigger.get_trigger_ids host name s
  = (Halt (Raise (KeyError (missing_key bad))), [trigger_get (FilterHost host)]).
Proof.
  intros Hans Hgood Hbad. unfold Trigger.get_trigger_ids.
  rewrite run_bind. unfold zapi_trigger_get at 1. rewrite Hans.
  by rewrite lookup_loop_unreadable.
Qed.

Lemma get_trigger_ids_returns_matching_witness :
  Forall (readable (OStr "svc-down"))
    [Scenario.live "1" "svc-down" "0";
     delete "triggerid" (Scenario.live "9" "disk-full" "0");
     Scenario.live "2" "svc-down" "1"]
  ∧ Trigger.get_trigger_ids "h1" (OStr "svc-down")
      (Scenario.remote false
         [Scenario.live "1" "svc-down" "0";
          delete "triggerid" (Scenario.live "9" "disk-full" "0");
          Scenario.live "2" "svc-down" "1"])
    = (Return [VStr "1"; VStr "2"], [trigger_get (FilterHost "h1")]).
Proof.
  assert (H : Forall (readable (OStr "svc-down"))
                [Scenario.live "1" "svc-down" "0";
                 delete "triggerid" (Scenario.live "9" "disk-full" "0");
                 Scenario.live "2" "svc-down" "1"]).
  { repeat constructor.
    - exists (VStr "svc-down"). split; [reflexivity|]. intros _. by exists (VStr "1").
    - exists (VStr "disk-full"). split; [reflexivity|]. intros E. discriminate E.
    - exists (VStr "svc-down"). split; [reflexivity|]. intros _. by exists (VStr "2"). }
  split; [exact H|].
  exact (get_trigger_ids_returns_matching "h1" (OStr "svc-down")
           (Scenario.remote false
              [Scenario.live "1" "svc-down" "0";
               delete "triggerid" (Scenario.live "9" "disk-full" "0");
               Scenario.live "2" "svc-down" "1"]) H).
Defined.

Lemma get_trigger_ids_missing_key_witness :
  ¬ readable (OStr "svc-down") (delete "triggerid" (Scenario.live "2" "svc-down" "0"))
  ∧ Trigger.get_trigger_ids "h1" (OStr "svc-down")
      (Scenario.remote false
         [Scenario.live "1" "svc-down" "0";
          delete "triggerid" (Scenario.live "2" "svc-down" "0");
          Scenario.live "3" "svc-down" "0"])
    = (Halt (Raise (KeyError "triggerid")), [trigger_get (FilterHost "h1")]).
Proof.
  assert (Hbad : ¬ readable (OStr "svc-down")
                   (delete "triggerid" (Scenario.live "2" "svc-down" "0"))).
  { intros (d & Hd & Hid). vm_compute in Hd. injection Hd as <-.
    destruct (Hid eq_refl) as [i Hi]. vm_compute in Hi. discriminate Hi. }
  split; [exact Hbad|].
  refine (get_trigger_ids_missing_key "h1" (OStr "svc-down")
            (Scenario.remote false
               [Scenario.live "1" "svc-down" "0";
                delete "triggerid" (Scenario.live "2" "svc-down" "0");
                Scenario.live "3" "svc-down" "0"])
            [Scenario.live "1" "svc-down" "0"]
            (delete "triggerid" (Scenario.live "2" "svc-down" "0"))
            [Scenario.live "3" "svc-down" "0"] eq_refl _ Hbad).
  repeat constructor.
  exists (VStr "svc-down"). split; [reflexivity|]. intros _. by exists (VStr "1").
Defined.

(** ** Further properties of the decision and of the update *)

Lemma builder_halt_not_exit p st c kw : builder_halt p st ≠ ExitJson c kw.
Proof.
  unfold builder_halt.
  repeat match goal with
         | |- context [match ?x with _ => _ end] => destruct x
         end; discriminate.
Qed.

(** X3: the calls of the decision of [main], for every state, lookup
    result, declaration and mode.  It makes no read of its own, never a
    create and never an update; its only call is one [trigger.delete]
    carrying the whole lookup result, made exactly when the state is
    absent, the lookup found something and check mode is off. *)
Theorem reconcile_calls state ids d e p st r mc tg s :
  (main_reconcile state ids d e p st r mc tg s).2
  = if bool_decide (state = "absent") && negb (bool_decide (ids = []))
       && negb (check_mode s)
    then [trigger_delete ids] else [].
Proof.
  rewrite main_reconcile_run.
  destruct (bool_decide (state = "absent")); cbn [andb].
  - destruct ids; [reflexivity|].
    rewrite (bool_decide_eq_false_2 (_ :: _ = [])) by discriminate.
    destruct (check_mode s); reflexivity.
  - destruct (bool_decide (state = "present")); [destruct ids|]; reflexivity.
Qed.

(** X4: the decision of [main] ends in [exit_json] only in check mode,
    and then with [changed=True] and no message: either the state is
    absent and the lookup found something, or the state is present and
    it found nothing.  Outside check mode no run of the decision ends in
    [exit_json]. *)
Theorem reconcile_exit state ids d e p st r mc tg s c kw :
  (main_reconcile state ids d e p st r mc tg s).1 = Halt (ExitJson c kw) →
  check_mode s = true ∧ c = true ∧ kw = []
  ∧ ((state = "absent" ∧ ids ≠ []) ∨ (state = "present" ∧ ids = [])).
Proof.
  rewrite main_reconcile_run.
  destruct (bool_decide (state = "absent")) eqn:Habs.
  - apply bool_decide_eq_true in Habs.
    destruct ids as [|i ids]; [discriminate|].
    destruct (check_mode s); [|discriminate].
    intros [= <- <-]. split_and!; try reflexivity. left. by split.
  - destruct (bool_decide (state = "present")) eqn:Hpres; [|discriminate].
    apply bool_decide_eq_true in Hpres.
    destruct ids as [|i ids]; cbn [fst].
    + destruct (check_mode s).
      * intros [= <- <-]. split_and!; try reflexivity. by right.
      * intros [= H]. by apply builder_halt_not_exit in H.
    + intros [= H]. by apply builder_halt_not_exit in H.
Qed.

Lemma reconcile_exit_witness :
  (main_reconcile "absent" [VStr "1"; VStr "2"] "svc-down" "last(/h1/x)=1"
     None None None None None
     (Scenario.remote true
        [Scenario.live "1" "svc-down" "0"; Scenario.live "2" "svc-down" "0"])).1
  = Halt (ExitJson true [])
  ∧ check_mode (Scenario.remote true
        [Scenario.live "1" "svc-down" "0"; Scenario.live "2" "svc-down" "0"]) = true
  ∧ true = true ∧ @nil (string * text) = []
  ∧ (("absent" = "absent" ∧ [VStr "1"; VStr "2"] ≠ [])
     ∨ ("absent" = "present" ∧ [VStr "1"; VStr "2"] = [])).
Proof.
  split; [reflexivity|].
  exact (reconcile_exit "absent" [VStr "1"; VStr "2"] "svc-down" "last(/h1/x)=1"
           None None None None None
           (Scenario.remote true
              [Scenario.live "1" "svc-down" "0"; Scenario.live "2" "svc-down" "0"])
           true [] eq_refl).
Defined.

(** X5: when the dump answers no trigger for the id (it was removed
    after the lookup), the update stops with [IndexError] right after
    the dump, in check mode or not, and makes no mutating call. *)
Theorem update_empty_dump cfg id s :
  answer s (ExtendByIds id) = [] →
  Trigger.update_trigger_with cfg id s
  = (Halt (Raise IndexError), [trigger_get (ExtendByIds id)]).
Proof. intros E. by rewrite update_trigger_with_run, E. Qed.

Lemma update_empty_dump_witness :
  answer (Scenario.remote false [Scenario.live "1" "svc-down" "0"])
         (ExtendByIds (VStr "7")) = []
  ∧ Trigger.update_trigger_with Scenario.desired (VStr "7")
      (Scenario.remote false [Scenario.live "1" "svc-down" "0"])
    = (Halt (Raise IndexError), [trigger_get (ExtendByIds (VStr "7"))]).
Proof.
  assert (E : answer (Scenario.remote false [Scenario.live "1" "svc-down" "0"])
                     (ExtendByIds (VStr "7")) = []) by (vm_compute; reflexivity).
  split; [exact E|].
  exact (update_empty_dump Scenario.desired (VStr "7")
           (Scenario.remote false [Scenario.live "1" "svc-down" "0"]) E).
Defined.

(** X6: when the first dumped trigger gives an empty diff, the update
    makes the dump and nothing else, in check mode or not: no
    [trigger.update] is sent for a trigger that is up to date. *)
Theorem update_up_to_date_no_call cfg id s live rest :
  answer s (ExtendByIds id) = live :: rest →
  diff cfg live = ∅ →
  (Trigger.update_trigger_with cfg id s).2 = [trigger_get (ExtendByIds id)].
Proof.
  intros E Hd. rewrite update_trigger_with_run, E.
  by rewrite bool_decide_eq_true_2.
Qed.

Lemma update_up_to_date_no_call_witness :
  answer (Scenario.remote false [Scenario.live "7" "svc-down" "0"])
         (ExtendByIds (VStr "7")) = [Scenario.live "7" "svc-down" "0"]
  ∧ diff Scenario.desired (Scenario.live "7" "svc-down" "0") = ∅
  ∧ (Trigger.update_trigger_with Scenario.desired (VStr "7")
       (Scenario.remote false [Scenario.live "7" "svc-down" "0"])).2
    = [trigger_get (ExtendByIds (VStr "7"))].
Proof.
  assert (E : answer (Scenario.remote false [Scenario.live "7" "svc-down" "0"])
                     (ExtendByIds (VStr "7")) = [Scenario.live "7" "svc-down" "0"])
    by reflexivity.
  assert (Hd : diff Scenario.desired (Scenario.live "7" "svc-down" "0") = ∅)
    by (vm_compute; reflexivity).
  split; [exact E|]. split; [exact Hd|].
  exact (update_up_to_date_no_call Scenario.desired (VStr "7")
           (Scenario.remote false [Scenario.live "7" "svc-down" "0"])
           (Scenario.live "7" "svc-down" "0") [] E Hd).
Defined.

(** X7: the update ends in [exit_json] only in check mode, with
    [changed=True] and no message, and only when the dump answered a
    trigger whose diff is not empty.  Outside check mode no run of the
    update ends in [exit_json]. *)
Theorem update_exit cfg id s c kw :
  (Trigger.update_trigger_with cfg id s).1 = Halt (ExitJson c kw) →
  check_mode s = true ∧ c = true ∧ kw = []
  ∧ ∃ live rest, answer s (ExtendByIds id) = live :: rest ∧ diff cfg live ≠ ∅.
Proof.
  rewrite update_trigger_with_run.
  destruct (answer s (ExtendByIds id)) as [|live rest]; [discriminate|].
  case_bool_decide as Hd; [discriminate|].
  destruct (check_mode s); [|discriminate].
  intros [= <- <-]. split_and!; try reflexivity. by exists live, rest.
Qed.

Lemma update_exit_witness :
  (Trigger.update_trigger_with Scenario.desired (VStr "7")
     (Scenario.remote true [Scenario.live "7" "svc-down" "1"])).1
  = Halt (ExitJson true [])
  ∧ check_mode (Scenario.remote true [Scenario.live "7" "svc-down" "1"]) = true
  ∧ true = true ∧ @nil (string * text) = []
  ∧ ∃ live rest,
      answer (Scenario.remote true [Scenario.live "7" "svc-down" "1"])
             (ExtendByIds (VStr "7")) = live :: rest
      ∧ diff Scenario.desired live ≠ ∅.
Proof.
  assert (E : (Trigger.update_trigger_with Scenario.desired (VStr "7")
                 (Scenario.remote true [Scenario.live "7" "svc-down" "1"])).1
              = Halt (ExitJson true [])) by (vm_compute; reflexivity).
  split; [exact E|].
  exact (update_exit Scenario.desired (VStr "7")
           (Scenario.remote true [Scenario.live "7" "svc-down" "1"]) true [] E).
Defined.

(** X8: an empty string given for [priority] or for [status] is taken
    as if the option were left out: the builder, and with it the create
    and the update, behave exactly as with [None]; it is not rejected as
    a value outside the fixed set. *)
Theorem empty_string_as_unset d e p st r mc tg s :
  Trigger.generate_trigger_config d e (Some "") st r mc tg s
  = Trigger.generate_trigger_config d e None st r mc tg s
  ∧ Trigger.generate_trigger_config d e p (Some "") r mc tg s
    = Trigger.generate_trigger_config d e p None r mc tg s
  ∧ Trigger.create_trigger d e (Some "") (Some "") r mc tg s
    = Trigger.create_trigger d e None None r mc tg s
  ∧ (∀ id, Trigger.update_trigger id d e (Some "") (Some "") r mc tg s
           = Trigger.update_trigger id d e None None r mc tg s).
Proof.
  rewrite !generate_trigger_config_halts, !create_trigger_run.
  split_and!; [reflexivity| |reflexivity|].
  - unfold builder_halt. by case_if_set p p0.
  - intros id. by rewrite !update_trigger_run.
Qed.

(** A trace that is a literal list: split it and count by computation. *)
Ltac by_trace := split; [reflexivity | repeat constructor].

(** X9: no run makes two mutating calls, and nothing is called after a
    mutating call: the trace of the decision of [main], of the update,
    of the create and of the delete is its read-only calls followed by
    at most one mutating call. *)
Theorem one_mutation_and_last s :
  (∀ state ids d e p st r mc tg,
     let t := (main_reconcile state ids d e p st r mc tg s).2 in
     t = reads t ++ writes t ∧ (length (writes t) ≤ 1)%nat)
  ∧ (∀ cfg id,
       let t := (Trigger.update_trigger_with cfg id s).2 in
       t = reads t ++ writes t ∧ (length (writes t) ≤ 1)%nat)
  ∧ (∀ d e p st r mc tg,
       let t := (Trigger.create_trigger d e p st r mc tg s).2 in
       t = reads t ++ writes t ∧ (length (writes t) ≤ 1)%nat)
  ∧ (∀ ids,
       let t := (Trigger.delete_trigger ids s).2 in
       t = reads t ++ writes t ∧ (length (writes t) ≤ 1)%nat).
Proof.
  split_and!; intros; subst t.
  - rewrite main_reconcile_run.
    repeat case_bool_decide; destruct ids, (check_mode s); by_trace.
  - rewrite update_trigger_with_run.
    destruct (answer s (ExtendByIds id)); [by_trace|].
    case_bool_decide; [by_trace|]. destruct (check_mode s); by_trace.
  - rewrite create_trigger_run. by_trace.
  - rewrite delete_trigger_run. destruct (check_mode s); by_trace.
Qed.

(** ** The lookup matches the name exactly *)

Lemma value_eq_str v n : Trigger.value_eq v (OStr n) = true ↔ v = VStr n.
Proof.
  destruct v as [a| |]; cbn; [|by split..].
  rewrite bool_decide_eq_true. split; [by intros ->|by intros [= ->]].
Qed.

Lemma elem_of_matching_ids n (l : list config) i :
  i ∈ matching_ids (OStr n) l
  ↔ ∃ t, t ∈ l ∧ t !! "description" = Some (VStr n) ∧ t !! "triggerid" = Some i.
Proof.
  unfold matching_ids. rewrite list_elem_of_omap.
  split; intros (t & Ht & H); exists t; (split; [exact Ht|]).
  - unfold matching_id in H. destruct (t !! "description") as [d|]; [|discriminate].
    cbn in H. destruct (Trigger.value_eq d (OStr n)) eqn:E; [|discriminate].
    apply value_eq_str in E as ->. by split.
  - destruct H as [Hd Hi]. unfold matching_id. rewrite Hd. cbn.
    by rewrite bool_decide_eq_true_2.
Qed.

(** X10: on an answer it can read through, [get_trigger_ids] returns an
    id exactly when some answered trigger has that [triggerid] and a
    description equal, as a string, to the name asked for: the match is
    exact (no case folding, no pattern), every match is returned and
    nothing else is. *)
Theorem get_trigger_ids_exact host n s :
  Forall (readable (OStr n)) (answer s (FilterHost host)) →
  ∃ ids, (Trigger.get_trigger_ids host (OStr n) s).1 = Return ids
         ∧ ∀ i, i ∈ ids
                ↔ ∃ t, t ∈ answer s (FilterHost host)
                       ∧ t !! "description" = Some (VStr n)
                       ∧ t !! "triggerid" = Some i.
Proof.
  intros Hok. exists (matching_ids (OStr n) (answer s (FilterHost host))). split.
  - unfold Trigger.get_trigger_ids. rewrite run_bind. unfold zapi_trigger_get at 1.
    by rewrite lookup_loop_readable.
  - apply elem_of_matching_ids.
Qed.

Lemma get_trigger_ids_exact_witness :
  Forall (readable (OStr "svc-down"))
    [Scenario.live "1" "svc-down" "0"; Scenario.live "2" "SVC-DOWN" "0"]
  ∧ ∃ ids,
      (Trigger.get_trigger_ids "h1" (OStr "svc-down")
         (Scenario.remote false
            [Scenario.live "1" "svc-down" "0"; Scenario.live "2" "SVC-DOWN" "0"])).1
      = Return ids
      ∧ ∀ i, i ∈ ids
             ↔ ∃ t, t ∈ [Scenario.live "1" "svc-down" "0";
                         Scenario.live "2" "SVC-DOWN" "0"]
                    ∧ t !! "description" = Some (VStr "svc-down")
                    ∧ t !! "triggerid" = Some i.
Proof.
  assert (H : Forall (readable (OStr "svc-down"))
                [Scenario.live "1" "svc-down" "0"; Scenario.live "2" "SVC-DOWN" "0"]).
  { repeat constructor.
    - exists (VStr "svc-down"). split; [reflexivity|]. intros _. by exists (VStr "1").
    - exists (VStr "SVC-DOWN"). split; [reflexivity|]. intros E. discriminate E. }
  split; [exact H|].
  exact (get_trigger_ids_exact "h1" "svc-down"
           (Scenario.remote false
              [Scenario.live "1" "svc-down" "0"; Scenario.live "2" "SVC-DOWN" "0"]) H).
Defined.
